(** * oracle_user: reconciliation of one Oracle account

    A shallow embedding of [oracle_user.py] (the statement builders
    [getCreateUserSQL], [getDropUserSQL], [getUpdateUserSQL], the two
    mappings [mapState] and [mapAccountStatus], the reader [getUser], the
    executor [executeSQL], the reconciler [ensure], [createConnection] and
    [main]) together with the properties the specification states about
    them and further properties read off the code. *)

From Stdlib Require Import Ascii String.
From stdpp Require Import base option list strings gmap.

Local Open Scope string_scope.

(** ** Python values

    Every value the module handles is either a [str] or [None]: the optional
    parameters [password], [default_tablespace], [temporary_tablespace], the
    columns of the row fetched from the catalog, and the variable [sql]. *)

Definition pyval : Type := option string.

(** Truth value of [None] or a [str] in a condition: [None] and the empty
    string are false. *)
Definition truthy (v : pyval) : bool :=
  match v with
  | None => false
  | Some s => negb (bool_decide (s = ""))
  end.

(** What [str.format] substitutes for a field: [None] is rendered as the
    text [None]. *)
Definition py_str (v : pyval) : string :=
  match v with
  | None => "None"
  | Some s => s
  end.

(** [a != b] on values. *)
Definition py_ne (a b : pyval) : bool := negb (bool_decide (a = b)).

(** The right operand of [in] is a list of strings in [mapState] and in the
    ["OPEN"] case of [mapAccountStatus], and a plain string in its other
    case, where [in] is the substring test. *)
Inductive pyseq : Type :=
  | PyList (l : list string)
  | PyStr (s : string).

Fixpoint is_prefix (p s : string) : bool :=
  match p, s with
  | EmptyString, _ => true
  | String a p', String b s' => bool_decide (a = b) && is_prefix p' s'
  | String _ _, EmptyString => false
  end.

Fixpoint contains (needle hay : string) : bool :=
  is_prefix needle hay ||
  match hay with
  | EmptyString => false
  | String _ hay' => contains needle hay'
  end.

Definition py_in (x : string) (c : pyseq) : bool :=
  match c with
  | PyList l => bool_decide (x ∈ l)
  | PyStr s => contains x s
  end.

(** [str.upper] on the ASCII letters. *)
Definition upper_ascii (c : ascii) : ascii :=
  let n := nat_of_ascii c in
  if (97 <=? n)%nat && (n <=? 122)%nat then ascii_of_nat (n - 32) else c.

Fixpoint upper (s : string) : string :=
  match s with
  | EmptyString => EmptyString
  | String c s' => String (upper_ascii c) (upper s')
  end.

(** The double quote, as a one-character string. *)
Definition dquote : string := String (ascii_of_nat 34) EmptyString.

(** ** Module parameters

    [state] is declared with [choices=['present', 'absent', 'locked',
    'unlocked']], so the argument parser admits these four strings only. *)

Inductive State : Type := present | absent | locked | unlocked.

Definition state_str (s : State) : string :=
  match s with
  | present => "present"
  | absent => "absent"
  | locked => "locked"
  | unlocked => "unlocked"
  end.

Global Instance State_eq_dec : EqDecision State.
Proof. solve_decision. Defined.

Record Params : Type := mkParams {
  p_name : string;
  p_password : pyval;
  p_state : State;
  p_default_tablespace : pyval;
  p_temporary_tablespace : pyval
}.

(** ** Statement builders *)

Definition getCreateUserSQL (name : string)
    (userpass default_tablespace temporary_tablespace account_status : pyval)
    : string :=
  let sql := "CREATE USER " +:+ name +:+ " IDENTIFIED BY VALUES '"
             +:+ py_str userpass +:+ "'" in
  let sql := if truthy default_tablespace
             then sql +:+ " DEFAULT TABLESPACE " +:+ py_str default_tablespace
             else sql in
  let sql := if truthy temporary_tablespace
             then sql +:+ " TEMPORARY TABLESPACE " +:+ py_str temporary_tablespace
             else sql in
  let sql := if truthy account_status
             then sql +:+ " ACCOUNT " +:+ py_str account_status
             else sql in
  sql.

Definition getDropUserSQL (name : string) : string :=
  "DROP USER " +:+ dquote +:+ name +:+ dquote +:+ " CASCADE".

(** [account_status] is a parameter of the function and is never read by
    its body. *)
Definition getUpdateUserSQL (name : string)
    (userpass default_tablespace temporary_tablespace account_status : pyval)
    : string :=
  let sql := "ALTER USER " +:+ name in
  let sql := if truthy userpass
             then sql +:+ " IDENTIFIED BY VALUES '" +:+ py_str userpass +:+ "'"
             else sql in
  let sql := if truthy default_tablespace
             then sql +:+ " DEFAULT TABLESPACE " +:+ py_str default_tablespace
             else sql in
  let sql := if truthy temporary_tablespace
             then sql +:+ " TEMPORARY TABLESPACE " +:+ py_str temporary_tablespace
             else sql in
  sql.

Definition mapState (state : string) : string :=
  if py_in state (PyList ["present"; "unlocked"]) then "UNLOCK" else "LOCK".

Definition mapAccountStatus (account_status : pyval) : pyseq :=
  if bool_decide (account_status = Some "OPEN")
  then PyList ["present"; "unlocked"]
  else PyStr "locked".

(** ** The account record

    [getUser] returns [None] or a dict with the five keys below; the row is
    the 4-tuple [fetchone] gives. *)

Record Row : Type := mkRow {
  row0 : pyval;   (* u.default_tablespace *)
  row1 : pyval;   (* u.temporary_tablespace *)
  row2 : pyval;   (* s.password *)
  row3 : pyval    (* u.account_status *)
}.

Global Instance Row_eq_dec : EqDecision Row.
Proof. solve_decision. Defined.

Definition User : Type := gmap string pyval.

Definition user_of_row (name : string) (row : Row) : User :=
  <["account_status" := row3 row]>
    (<["password" := row2 row]>
      (<["temporary_tablespace" := row1 row]>
        (<["default_tablespace" := row0 row]>
          (<["name" := Some name]> ∅)))).

(** [d.get(k)]: the value under [k], or [None] when [k] is not a key. *)
Definition dict_get (d : User) (k : string) : pyval :=
  match d !! k with
  | Some v => v
  | None => None
  end.

(** Truth value of [user]: [None] and the empty dict are false. *)
Definition user_truthy (u : option User) : bool :=
  match u with
  | None => false
  | Some d => negb (bool_decide (d = ∅))
  end.

(** ** The decision inside [ensure]

    The value of the variable [sql] when control reaches [if sql:], as a
    function of the parameters and of what the first [getUser] returned.
    Each [let] below is one assignment of the source, in its order. *)

Definition ensure_sql (p : Params) (user : option User) : pyval :=
  let sql : pyval := None in
  let name := upper (p_name p) in
  let password := p_password p in
  let state := state_str (p_state p) in
  let default_tablespace := p_default_tablespace p in
  let temporary_tablespace := p_temporary_tablespace p in
  if negb (user_truthy user) then
    if negb (bool_decide (state = "absent")) then
      Some (getCreateUserSQL name password default_tablespace
              temporary_tablespace (Some (mapState state)))
    else sql
  else
    let u := default ∅ user in
    let sql :=
      if bool_decide (state = "absent") then
        Some (getDropUserSQL name)
      else if negb (py_in state (mapAccountStatus (dict_get u "account_status"))) then
        Some (getUpdateUserSQL name None None None (Some (mapState state)))
      else sql in
    let sql :=
      if truthy password && py_ne (dict_get u "password") password then
        Some (getUpdateUserSQL name password None None None)
      else sql in
    let sql :=
      if truthy default_tablespace
         && py_ne (dict_get u "default_tablespace") default_tablespace then
        Some (getUpdateUserSQL name None default_tablespace None None)
      else sql in
    let sql :=
      if truthy temporary_tablespace
         && py_ne (dict_get u "temporary_tablespace") temporary_tablespace then
        Some (getUpdateUserSQL name None None temporary_tablespace None)
      else sql in
    sql.

(** ** The database, as the module sees it

    The connection offers two operations: the catalog lookup of [getUser]
    ([cur.prepare], [cur.execute], [cur.fetchone]) and the execution of one
    statement text in [executeSQL]. Either can raise
    [cx_Oracle.DatabaseError], which carries the driver's message. *)

Inductive dbres (A : Type) : Type :=
  | DbOk (a : A)
  | DatabaseError (e : string).
Arguments DbOk {A} a.
Arguments DatabaseError {A} e.

Class Driver (DB : Type) : Type := {
  select_user : DB -> string -> dbres (option Row);
  run_sql : DB -> string -> dbres DB
}.

(** What a pass did on the connection, oldest first. *)
Inductive event : Type :=
  | Select (name : string)
  | Execute (sql : string).

Definition executed (evs : list event) : list string :=
  omap (fun e => match e with Execute sql => Some sql | Select _ => None end) evs.

(** An exception nothing catches. The only one the module can raise by
    itself is the [NameError] for a name that is not bound where it is
    read. *)
Inductive exception : Type :=
  | NameError (name : string).

Global Instance exception_eq_dec : EqDecision exception.
Proof. solve_decision. Defined.

(** [module.fail_json(msg=...)] ends the process with the message; an
    uncaught exception ends it with a traceback. A computation returns a
    value, has failed through [fail_json], or has raised. *)
Inductive outcome (A : Type) : Type :=
  | Returned (a : A)
  | Failed (msg : string)
  | Raised (exc : exception).
Arguments Returned {A} a.
Arguments Failed {A} msg.
Arguments Raised {A} exc.

Global Instance dbres_eq_dec {A} `{EqDecision A} : EqDecision (dbres A).
Proof. solve_decision. Defined.

Global Instance event_eq_dec : EqDecision event.
Proof. solve_decision. Defined.

Global Instance outcome_eq_dec {A} `{EqDecision A} : EqDecision (outcome A).
Proof. solve_decision. Defined.

Section Reconciler.
Context {DB : Type} `{Driver DB}.

Record World : Type := mkWorld {
  w_db : DB;
  w_log : list event
}.

Definition M (A : Type) : Type := World -> outcome A * World.

Definition ret {A} (a : A) : M A := fun w => (Returned a, w).

Definition bind {A B} (m : M A) (k : A -> M B) : M B := fun w =>
  match m w with
  | (Returned a, w') => k a w'
  | (Failed msg, w') => (Failed msg, w')
  | (Raised exc, w') => (Raised exc, w')
  end.

Definition fail_json {A} (msg : string) : M A := fun w => (Failed msg, w).

Definition raise {A} (exc : exception) : M A := fun w => (Raised exc, w).

(** Reading the name [module] inside [executeSQL] or [getUser]: [module]
    is a local variable of [main], it is not a parameter of either function
    and no global of that name is defined, so the read raises [NameError]
    before [fail_json] is reached or its message is formatted. *)
Definition module_unbound {A} : M A := raise (NameError "module").

Definition record (e : event) (w : World) : World :=
  mkWorld (w_db w) (w_log w ++ [e]).

Notation "x <- m ;; k" := (bind m (fun x => k))
  (at level 100, m at next level, right associativity).

Definition executeSQL (sql : string) : M unit := fun w =>
  let w := record (Execute sql) w in
  match run_sql (w_db w) sql with
  | DatabaseError e => module_unbound w
  | DbOk db' => (Returned tt, mkWorld db' (w_log w))
  end.

Definition getUser (name : string) : M (option User) := fun w =>
  let data : option User := None in
  let w := record (Select name) w in
  match select_user (w_db w) name with
  | DatabaseError e => module_unbound w
  | DbOk row =>
      let data := match row with
                  | Some r => Some (user_of_row name r)
                  | None => data
                  end in
      (Returned data, w)
  end.

Definition ensure (p : Params) : M (bool * option User) :=
  let changed := false in
  let name := upper (p_name p) in
  user <- getUser name ;;
  let sql := ensure_sql p user in
  changed <- (if truthy sql
              then (_ <- executeSQL (py_str sql) ;; ret true)
              else ret changed) ;;
  final <- getUser name ;;
  ret (changed, final).

End Reconciler.

Arguments World DB : clear implicits.
Arguments M DB A : clear implicits.

Global Instance World_eq_dec {DB} `{EqDecision DB} : EqDecision (World DB).
Proof. solve_decision. Defined.

(** ** A small executable database

    An instance of the driver interface on which the reconciler can be run:
    accounts are kept in a finite map from name to row, and a statement is
    read word by word. *)

Module MiniOracle.

Definition db : Type := gmap string Row.

Fixpoint words (s : string) : list string :=
  match s with
  | EmptyString => [EmptyString]
  | String c s' =>
      if bool_decide (c = " "%char) then EmptyString :: words s'
      else match words s' with
           | w :: ws => String c w :: ws
           | [] => [String c EmptyString]
           end
  end.

Fixpoint drop_last (s : string) : string :=
  match s with
  | EmptyString => EmptyString
  | String c EmptyString => EmptyString
  | String c s' => String c (drop_last s')
  end.

(** The text between the first and the last character of a quoted word. *)
Definition unquote (s : string) : string :=
  match s with
  | EmptyString => EmptyString
  | String _ s' => drop_last s'
  end.

Definition word_is (a b : string) : bool := bool_decide (a = b).

Fixpoint clauses (toks : list string) (r : Row) : option Row :=
  match toks with
  | [] => Some r
  | k1 :: k2 :: rest =>
      if word_is k1 "ACCOUNT" then
        if word_is k2 "LOCK" then
          clauses rest (mkRow (row0 r) (row1 r) (row2 r) (Some "LOCKED"))
        else if word_is k2 "UNLOCK" then
          clauses rest (mkRow (row0 r) (row1 r) (row2 r) (Some "OPEN"))
        else None
      else
        match rest with
        | v :: rest' =>
            if word_is k1 "DEFAULT" && word_is k2 "TABLESPACE" then
              clauses rest' (mkRow (Some v) (row1 r) (row2 r) (row3 r))
            else if word_is k1 "TEMPORARY" && word_is k2 "TABLESPACE" then
              clauses rest' (mkRow (row0 r) (Some v) (row2 r) (row3 r))
            else
              match rest' with
              | h :: rest'' =>
                  if word_is k1 "IDENTIFIED" && word_is k2 "BY" && word_is v "VALUES" then
                    clauses rest'' (mkRow (row0 r) (row1 r) (Some (unquote h)) (row3 r))
                  else None
              | [] => None
              end
        | [] => None
        end
  | _ => None
  end.

Definition new_row : Row := mkRow (Some "USERS") (Some "TEMP") None (Some "OPEN").

Definition run (d : db) (sql : string) : dbres db :=
  match words sql with
  | verb :: kw :: n :: rest =>
      if negb (word_is kw "USER") then DatabaseError "ORA-00900: invalid SQL statement"
      else if word_is verb "DROP" then
        match d !! unquote n, rest with
        | Some _, ["CASCADE"] => DbOk (delete (unquote n) d)
        | None, ["CASCADE"] => DatabaseError "ORA-01918: user does not exist"
        | _, _ => DatabaseError "ORA-00933: SQL command not properly ended"
        end
      else if word_is verb "CREATE" then
        match d !! n, rest with
        | Some _, _ => DatabaseError "ORA-01920: user name conflicts with another user or role name"
        | None, [] => DatabaseError "ORA-01938: IDENTIFIED BY must be specified for CREATE USER"
        | None, _ =>
            match clauses rest new_row with
            | Some r => DbOk (<[n := r]> d)
            | None => DatabaseError "ORA-00922: missing or invalid option"
            end
        end
      else if word_is verb "ALTER" then
        match d !! n, rest with
        | None, _ => DatabaseError "ORA-01918: user does not exist"
        | Some _, [] => DatabaseError "ORA-00922: missing or invalid option"
        | Some r0, _ =>
            match clauses rest r0 with
            | Some r => DbOk (<[n := r]> d)
            | None => DatabaseError "ORA-00922: missing or invalid option"
            end
        end
      else DatabaseError "ORA-00900: invalid SQL statement"
  | _ => DatabaseError "ORA-00900: invalid SQL statement"
  end.

#[global] Instance driver : Driver db := {|
  select_user d name := DbOk (d !! name);
  run_sql := run
|}.

Definition start (d : db) : World db := mkWorld d [].

End MiniOracle.

(** ** The specification's reading of the field checks

    The specification describes the three field checks on an existing
    account as a chain in which the first difference found is the one
    applied. [field_diff_first] follows those words; [field_diff_last] is
    the same chain read from the other end. *)

Definition differs (desired stored : pyval) : bool :=
  truthy desired && py_ne stored desired.

Definition alter_password (p : Params) : string :=
  getUpdateUserSQL (upper (p_name p)) (p_password p) None None None.
Definition alter_default (p : Params) : string :=
  getUpdateUserSQL (upper (p_name p)) None (p_default_tablespace p) None None.
Definition alter_temporary (p : Params) : string :=
  getUpdateUserSQL (upper (p_name p)) None None (p_temporary_tablespace p) None.

Definition field_diff_first (p : Params) (row : Row) : pyval :=
  if differs (p_password p) (row2 row) then Some (alter_password p)
  else if differs (p_default_tablespace p) (row0 row) then Some (alter_default p)
  else if differs (p_temporary_tablespace p) (row1 row) then Some (alter_temporary p)
  else None.

Definition field_diff_last (p : Params) (row : Row) : pyval :=
  if differs (p_temporary_tablespace p) (row1 row) then Some (alter_temporary p)
  else if differs (p_default_tablespace p) (row0 row) then Some (alter_default p)
  else if differs (p_password p) (row2 row) then Some (alter_password p)
  else None.

(** The desired lifecycle agrees with the observed status: the test of the
    [elif] in [ensure], negated. *)
Definition lifecycle_matches (s : State) (account_status : pyval) : bool :=
  py_in (state_str s) (mapAccountStatus account_status).

(** A statement text opens with one of the three verbs. *)
Definition is_mutation (sql : string) : bool :=
  is_prefix "CREATE USER " sql || is_prefix "ALTER USER " sql
  || is_prefix "DROP USER " sql.

(** ** The entry point

    [createConnection] formats the five connection parameters into one
    connect string and hands it to [cx_Oracle.connect], which returns a
    connection or raises [DatabaseError]. [main] checks that the client
    library was imported, connects, runs [ensure] and reports with
    [exit_json]; it stops at its own [fail_json] when the library is
    missing or the connection is refused, and with a traceback when
    [ensure] raises. *)

Record Connection : Type := mkConnection {
  oracle_host : string;
  oracle_port : string;
  oracle_user : string;
  oracle_pass : string;
  oracle_service : string
}.

Definition connect_string (username userpass host port service : string) : string :=
  username +:+ "/" +:+ userpass +:+ "@" +:+ host +:+ ":" +:+ port +:+ "/" +:+ service.

Definition createConnection {DB : Type} (connect : string -> dbres DB)
    (username userpass host port service : string) : dbres DB :=
  connect (connect_string username userpass host port service).

(** How the process ends: [module.exit_json(changed=..., user=...)],
    [module.fail_json(msg=...)], or the traceback of an uncaught
    exception. *)
Inductive exit : Type :=
  | exit_json (changed : bool) (user : option User)
  | exit_fail (msg : string)
  | exit_traceback (exc : exception).

Definition client_missing : string :=
  "cx_Oracle not found. Needs to be installed. See http://cx-oracle.sourceforge.net/".

(** The result of [main], with what was done on the connection. *)
Definition main {DB : Type} `{Driver DB} (connect : string -> dbres DB)
    (oracleclient_found : bool) (c : Connection) (p : Params)
    : exit * list event :=
  if negb oracleclient_found then (exit_fail client_missing, [])
  else
    match createConnection connect (oracle_user c) (oracle_pass c)
            (oracle_host c) (oracle_port c) (oracle_service c) with
    | DatabaseError e => (exit_fail e, [])
    | DbOk conn =>
        match ensure p (mkWorld conn []) with
        | (Returned (changed, user), w) => (exit_json changed user, w_log w)
        | (Failed msg, w) => (exit_fail msg, w_log w)
        | (Raised exc, w) => (exit_traceback exc, w_log w)
        end
    end.

(** ** What a statement does when the database carries it out

    The row of the account after the statement [ensure] builds for the row
    [before] has been executed as written, read off the builder call that
    makes it. A CREATE gives an account with the credential of the
    statement, the tablespaces it names (the database chooses the others),
    and status OPEN exactly when the clause is ACCOUNT UNLOCK; a
    single-clause ALTER sets the one column of its clause; the ALTER with no
    clause changes nothing; a DROP removes the account. *)



(** A parameter that counts as provided: [None] and the empty string both
    fail the test [if default_tablespace]. *)
Definition provided (v : pyval) : pyval := if truthy v then v else None.

(** The shapes a pass can leave on the connection log. *)
Definition lookup_only (name : string) : list event := [Select name].
Definition two_lookups (name : string) : list event := [Select name; Select name].
Definition lookup_execute (name sql : string) : list event :=
  [Select name; Execute sql].
Definition lookup_execute_lookup (name sql : string) : list event :=
  [Select name; Execute sql; Select name].

(** ** A connection that drops

    A driver with two states: before the statement ([false]) the lookup
    finds no account and any statement is accepted; after it ([true]) the
    connection is lost and the lookup fails. *)

Module Flaky.

Definition lost : string := "ORA-03114: not connected to ORACLE".

#[global] Instance driver : Driver bool := {|
  select_user (d : bool) (name : string) :=
    if d then DatabaseError lost else DbOk None;
  run_sql (d : bool) (sql : string) := DbOk true
|}.

End Flaky.

(** ** A connection without the privilege

    A driver on which no account exists and every statement is refused. *)

Module Denied.

Definition refused : string := "ORA-01031: insufficient privileges".

#[global] Instance driver : Driver unit := {|
  select_user (d : unit) (name : string) := DbOk None;
  run_sql (d : unit) (sql : string) := DatabaseError refused
|}.

End Denied.

Definition want_present_hash : Params :=
  mkParams "app" (Some "H1") present None None.

(** The listener of the small database: one service, one administrator. *)
Definition default_connection : Connection :=
  mkConnection "127.0.0.1" "1521" "SYSTEM" "manager" "ORCL".

(** What [getUser] returns for a fetched row. *)
Definition found (name : string) (row : option Row) : option User :=
  user_of_row name <$> row.

(** ** Concrete accounts, requests and databases used below *)

Definition app_open : Row :=
  mkRow (Some "USERS") (Some "TEMP") (Some "H1") (Some "OPEN").

Definition want_hash_and_temp : Params :=
  mkParams "app" (Some "H2") present None (Some "TEMP2").

Definition want_locked : Params := mkParams "app" None locked None None.

Definition want_locked_and_temp : Params :=
  mkParams "app" None locked None (Some "TEMP2").

Definition want_absent : Params := mkParams "app" None absent None None.

Definition want_absent_with_hash : Params :=
  mkParams "app" (Some "H2") absent None None.

Definition want_locked_no_hash : Params :=
  mkParams "app" None locked (Some "USERS") None.

Definition only_app : MiniOracle.db := {[ "APP" := app_open ]}.

Definition listener (dsn : string) : dbres MiniOracle.db :=
  if bool_decide (dsn = "SYSTEM/manager@127.0.0.1:1521/ORCL") then DbOk only_app
  else DatabaseError "ORA-01017: invalid username/password; logon denied".


Definition want_two_tablespaces : Params :=
  mkParams "app" None present (Some "DATA") (Some "TEMP2").

(** ** Facts about the helpers *)

Lemma append_cons (x : ascii) (a b : string) :
  String x a +:+ b = String x (a +:+ b).
Proof. reflexivity. Qed.

Lemma append_assoc (a b c : string) : (a +:+ b) +:+ c = a +:+ (b +:+ c).
Proof.
  induction a as [|x a IH]; [reflexivity |].
  rewrite !append_cons. now f_equal.
Qed.

Lemma append_empty_r (a : string) : a +:+ "" = a.
Proof.
  induction a as [|x a IH]; [reflexivity |].
  rewrite append_cons. now f_equal.
Qed.

Lemma is_prefix_append (a b : string) : is_prefix a (a +:+ b) = true.
Proof.
  induction a as [|x a IH]; [reflexivity |].
  rewrite append_cons. cbn [is_prefix].
  rewrite bool_decide_eq_true_2 by reflexivity. exact IH.
Qed.

Lemma is_prefix_append_l (a b c : string) :
  is_prefix a b = true -> is_prefix a (b +:+ c) = true.
Proof.
  revert b. induction a as [|x a IH]; intros [|y b]; try easy.
  rewrite append_cons. cbn [is_prefix].
  intros [Hxy Hab]%andb_prop. rewrite Hxy. now apply IH.
Qed.

Section UserDict.
Variables (name : string) (row : Row).

Lemma get_default_tablespace :
  dict_get (user_of_row name row) "default_tablespace" = row0 row.
Proof. unfold dict_get, user_of_row. now simplify_map_eq. Qed.

Lemma get_temporary_tablespace :
  dict_get (user_of_row name row) "temporary_tablespace" = row1 row.
Proof. unfold dict_get, user_of_row. now simplify_map_eq. Qed.

Lemma get_password : dict_get (user_of_row name row) "password" = row2 row.
Proof. unfold dict_get, user_of_row. now simplify_map_eq. Qed.

Lemma get_account_status :
  dict_get (user_of_row name row) "account_status" = row3 row.
Proof. unfold dict_get, user_of_row. now simplify_map_eq. Qed.

Lemma user_of_row_truthy : user_truthy (Some (user_of_row name row)) = true.
Proof.
  unfold user_truthy, user_of_row. apply negb_true_iff, bool_decide_eq_false.
  apply insert_non_empty.
Qed.
End UserDict.

Lemma absent_str (s : State) : bool_decide (state_str s = "absent") = bool_decide (s = absent).
Proof. now destruct s. Qed.

Lemma mapState_cases (s : State) :
  mapState (state_str s) = match s with
                           | present | unlocked => "UNLOCK"
                           | absent | locked => "LOCK"
                           end.
Proof. now destruct s. Qed.

(** The [account_status] argument has no effect on the text built. *)
Lemma getUpdateUserSQL_account_status (n : string) (pw d t a b : pyval) :
  getUpdateUserSQL n pw d t a = getUpdateUserSQL n pw d t b.
Proof. reflexivity. Qed.

(** On an existing account, [ensure_sql] as one chain of tests. *)
Lemma ensure_sql_found (p : Params) (n : string) (row : Row) :
  ensure_sql p (Some (user_of_row n row)) =
  let name := upper (p_name p) in
  if differs (p_temporary_tablespace p) (row1 row) then Some (alter_temporary p)
  else if differs (p_default_tablespace p) (row0 row) then Some (alter_default p)
  else if differs (p_password p) (row2 row) then Some (alter_password p)
  else if bool_decide (p_state p = absent) then Some (getDropUserSQL name)
  else if lifecycle_matches (p_state p) (row3 row) then None
  else Some ("ALTER USER " +:+ name).
Proof.
  unfold ensure_sql. rewrite user_of_row_truthy. cbn [negb default from_option id].
  rewrite get_default_tablespace, get_temporary_tablespace, get_password,
    get_account_status, absent_str.
  unfold differs, lifecycle_matches, alter_temporary, alter_default, alter_password.
  destruct (truthy (p_temporary_tablespace p) && _); [reflexivity |].
  destruct (truthy (p_default_tablespace p) && _); [reflexivity |].
  destruct (truthy (p_password p) && _); [reflexivity |].
  destruct (bool_decide (p_state p = absent)); [reflexivity |].
  destruct (py_in _ _); reflexivity.
Qed.

Lemma ensure_sql_notfound (p : Params) :
  ensure_sql p None =
  if bool_decide (p_state p = absent) then None
  else Some (getCreateUserSQL (upper (p_name p)) (p_password p)
               (p_default_tablespace p) (p_temporary_tablespace p)
               (Some (mapState (state_str (p_state p))))).
Proof.
  unfold ensure_sql. cbn [user_truthy negb]. rewrite absent_str.
  now destruct (bool_decide (p_state p = absent)).
Qed.

(** The text of a CREATE statement, clause by clause. *)
Lemma getCreateUserSQL_text (n : string) (pw d t a : pyval) :
  getCreateUserSQL n pw d t a =
  "CREATE USER " +:+ n +:+ " IDENTIFIED BY VALUES '" +:+ py_str pw +:+ "'"
  +:+ (if truthy d then " DEFAULT TABLESPACE " +:+ py_str d else "")
  +:+ (if truthy t then " TEMPORARY TABLESPACE " +:+ py_str t else "")
  +:+ (if truthy a then " ACCOUNT " +:+ py_str a else "").
Proof.
  unfold getCreateUserSQL.
  destruct (truthy d), (truthy t), (truthy a);
    rewrite ?append_assoc, ?append_empty_r; reflexivity.
Qed.

(** The text of a single-clause ALTER statement. *)
Lemma alter_password_text (p : Params) :
  truthy (p_password p) = true ->
  alter_password p = "ALTER USER " +:+ upper (p_name p)
                     +:+ " IDENTIFIED BY VALUES '" +:+ py_str (p_password p) +:+ "'".
Proof.
  intros Hpw. unfold alter_password, getUpdateUserSQL. rewrite Hpw.
  cbn [truthy]. now rewrite ?append_assoc.
Qed.

Lemma alter_default_text (p : Params) :
  truthy (p_default_tablespace p) = true ->
  alter_default p = "ALTER USER " +:+ upper (p_name p)
                    +:+ " DEFAULT TABLESPACE " +:+ py_str (p_default_tablespace p).
Proof.
  intros Hd. unfold alter_default, getUpdateUserSQL. rewrite Hd.
  cbn [truthy]. now rewrite ?append_assoc.
Qed.

Lemma alter_temporary_text (p : Params) :
  truthy (p_temporary_tablespace p) = true ->
  alter_temporary p = "ALTER USER " +:+ upper (p_name p)
                      +:+ " TEMPORARY TABLESPACE " +:+ py_str (p_temporary_tablespace p).
Proof.
  intros Ht. unfold alter_temporary, getUpdateUserSQL. rewrite Ht.
  cbn [truthy]. now rewrite ?append_assoc.
Qed.

Lemma differs_truthy (desired stored : pyval) :
  differs desired stored = true -> truthy desired = true.
Proof. unfold differs. now intros [? _]%andb_prop. Qed.

(** ** Precedence among the field checks *)

(** C1, as stated, fails: on the open account APP (hash H1, temporary
    tablespace TEMP) with desired state present, hash H2 and temporary
    tablespace TEMP2, the lifecycle matches and both the hash and the
    temporary tablespace differ; the first-diff reading gives the
    password-only ALTER, while [ensure] builds the temporary-tablespace
    ALTER. *)
Lemma first_diff_precedence_fails :
  lifecycle_matches (p_state want_hash_and_temp) (row3 app_open) = true /\
  differs (p_password want_hash_and_temp) (row2 app_open) = true /\
  field_diff_first want_hash_and_temp app_open
    = Some "ALTER USER APP IDENTIFIED BY VALUES 'H2'" /\
  ensure_sql want_hash_and_temp (Some (user_of_row "APP" app_open))
    = Some "ALTER USER APP TEMPORARY TABLESPACE TEMP2" /\
  ensure_sql want_hash_and_temp (Some (user_of_row "APP" app_open))
    <> field_diff_first want_hash_and_temp app_open.
Proof. repeat split; vm_compute; congruence. Qed.

(** C1, amended: on an existing account whose lifecycle matches the
    observed status, [ensure] builds the single-clause ALTER of the last
    field that differs in the order password hash, default tablespace,
    temporary tablespace (so the temporary tablespace has the highest
    precedence and the password hash the lowest), and nothing when no
    provided field differs. The password-only ALTER is therefore built
    exactly when the hash differs and neither provided tablespace does. *)
Theorem ensure_applies_last_field_diff (p : Params) (n : string) (row : Row) :
  p_state p <> absent ->
  lifecycle_matches (p_state p) (row3 row) = true ->
  ensure_sql p (Some (user_of_row n row)) =
  let name := upper (p_name p) in
  if differs (p_temporary_tablespace p) (row1 row) then
    Some ("ALTER USER " +:+ name +:+ " TEMPORARY TABLESPACE "
          +:+ py_str (p_temporary_tablespace p))
  else if differs (p_default_tablespace p) (row0 row) then
    Some ("ALTER USER " +:+ name +:+ " DEFAULT TABLESPACE "
          +:+ py_str (p_default_tablespace p))
  else if differs (p_password p) (row2 row) then
    Some ("ALTER USER " +:+ name +:+ " IDENTIFIED BY VALUES '"
          +:+ py_str (p_password p) +:+ "'")
  else None.
Proof.
  intros Hstate Hlife. rewrite ensure_sql_found. cbn zeta.
  destruct (differs (p_temporary_tablespace p) (row1 row)) eqn:Ht.
  { now rewrite alter_temporary_text by eauto using differs_truthy. }
  destruct (differs (p_default_tablespace p) (row0 row)) eqn:Hd.
  { now rewrite alter_default_text by eauto using differs_truthy. }
  destruct (differs (p_password p) (row2 row)) eqn:Hp.
  { now rewrite alter_password_text by eauto using differs_truthy. }
  rewrite bool_decide_eq_false_2 by exact Hstate.
  now rewrite Hlife.
Qed.

Lemma ensure_applies_last_field_diff_witness :
  ensure_sql want_hash_and_temp (Some (user_of_row "APP" app_open))
  = Some "ALTER USER APP TEMPORARY TABLESPACE TEMP2".
Proof.
  rewrite (ensure_applies_last_field_diff want_hash_and_temp "APP" app_open).
  - reflexivity.
  - discriminate.
  - reflexivity.
Defined.

(** The first-diff and last-diff readings agree when at most one field
    differs. *)
Lemma field_diff_agree (p : Params) (row : Row) :
  (differs (p_password p) (row2 row) = false /\
   differs (p_default_tablespace p) (row0 row) = false) \/
  (differs (p_password p) (row2 row) = false /\
   differs (p_temporary_tablespace p) (row1 row) = false) \/
  (differs (p_default_tablespace p) (row0 row) = false /\
   differs (p_temporary_tablespace p) (row1 row) = false) ->
  field_diff_first p row = field_diff_last p row.
Proof.
  unfold field_diff_first, field_diff_last.
  intros [[-> ->] | [[-> ->] | [-> ->]]];
    repeat match goal with |- context [differs ?a ?b] => destruct (differs a b) end;
    reflexivity.
Qed.

(** ** Lock mismatch *)

(** C2, evaluated on the code: for the open account APP and desired state
    locked the lifecycle does not match, and the statement built is the bare
    text ALTER USER APP, with no ACCOUNT clause; when the temporary
    tablespace differs as well, the statement built is the tablespace
    ALTER. *)
Theorem lock_mismatch_statement :
  lifecycle_matches (p_state want_locked) (row3 app_open) = false /\
  ensure_sql want_locked (Some (user_of_row "APP" app_open))
    = Some "ALTER USER APP" /\
  ensure_sql want_locked_and_temp (Some (user_of_row "APP" app_open))
    = Some "ALTER USER APP TEMPORARY TABLESPACE TEMP2".
Proof. repeat split. Qed.

(** X9: with a lifecycle mismatch and no differing field, the statement is
    the bare ALTER USER and the name, with no clause after it, for every
    account and request. *)
Lemma lock_mismatch_bare_alter (p : Params) (n : string) (row : Row) :
  p_state p <> absent ->
  lifecycle_matches (p_state p) (row3 row) = false ->
  field_diff_last p row = None ->
  ensure_sql p (Some (user_of_row n row)) = Some ("ALTER USER " +:+ upper (p_name p)).
Proof.
  intros Hstate Hlife Hnone. rewrite ensure_sql_found. cbn zeta.
  unfold field_diff_last in Hnone.
  destruct (differs (p_temporary_tablespace p) (row1 row)); [discriminate |].
  destruct (differs (p_default_tablespace p) (row0 row)); [discriminate |].
  destruct (differs (p_password p) (row2 row)); [discriminate |].
  rewrite bool_decide_eq_false_2 by exact Hstate. now rewrite Hlife.
Qed.

(** ** CREATE *)

(** C6: when the account does not exist and the desired lifecycle is not
    absent, the statement built is CREATE USER <NAME> IDENTIFIED BY VALUES
    '<hash>', followed by the DEFAULT TABLESPACE clause when a default
    tablespace is provided, then the TEMPORARY TABLESPACE clause when a
    temporary tablespace is provided, then ACCOUNT UNLOCK for present and
    unlocked, ACCOUNT LOCK for locked. *)
Theorem create_statement_text (p : Params) :
  p_state p <> absent ->
  ensure_sql p None =
  Some ("CREATE USER " +:+ upper (p_name p)
        +:+ " IDENTIFIED BY VALUES '" +:+ py_str (p_password p) +:+ "'"
        +:+ (if truthy (p_default_tablespace p)
             then " DEFAULT TABLESPACE " +:+ py_str (p_default_tablespace p)
             else "")
        +:+ (if truthy (p_temporary_tablespace p)
             then " TEMPORARY TABLESPACE " +:+ py_str (p_temporary_tablespace p)
             else "")
        +:+ " ACCOUNT "
        +:+ match p_state p with
            | present | unlocked => "UNLOCK"
            | locked | absent => "LOCK"
            end).
Proof.
  intros Hstate. rewrite ensure_sql_notfound.
  rewrite bool_decide_eq_false_2 by exact Hstate.
  rewrite getCreateUserSQL_text, mapState_cases.
  now destruct (p_state p).
Qed.

Lemma create_statement_text_witness :
  ensure_sql want_locked_no_hash None =
  Some "CREATE USER APP IDENTIFIED BY VALUES 'None' DEFAULT TABLESPACE USERS ACCOUNT LOCK".
Proof.
  rewrite (create_statement_text want_locked_no_hash).
  - reflexivity.
  - discriminate.
Defined.

(** C10: when the account does not exist, the desired lifecycle is not
    absent and no password hash is provided, a CREATE statement is built
    all the same, and its credential is the text None between quotes. *)
Theorem create_without_hash_embeds_None (p : Params) :
  p_state p <> absent ->
  p_password p = None ->
  exists rest,
    ensure_sql p None =
    Some ("CREATE USER " +:+ upper (p_name p)
          +:+ " IDENTIFIED BY VALUES 'None'" +:+ rest).
Proof.
  intros Hstate Hpw. rewrite ensure_sql_notfound.
  rewrite bool_decide_eq_false_2 by exact Hstate.
  rewrite getCreateUserSQL_text, Hpw.
  exists ((if truthy (p_default_tablespace p)
           then " DEFAULT TABLESPACE " +:+ py_str (p_default_tablespace p)
           else "")
          +:+ (if truthy (p_temporary_tablespace p)
               then " TEMPORARY TABLESPACE " +:+ py_str (p_temporary_tablespace p)
               else "")
          +:+ " ACCOUNT " +:+ mapState (state_str (p_state p))).
  destruct (p_state p); reflexivity.
Qed.

Lemma create_without_hash_embeds_None_witness :
  exists rest,
    ensure_sql want_locked_no_hash None =
    Some ("CREATE USER APP IDENTIFIED BY VALUES 'None'" +:+ rest).
Proof.
  destruct (create_without_hash_embeds_None want_locked_no_hash) as [rest Hrest].
  - discriminate.
  - reflexivity.
  - exists rest. exact Hrest.
Defined.

(** ** DROP *)

(** C7, evaluated on the code: for the existing account APP (hash H1) and
    desired state absent with hash H2, the statement built is the password
    ALTER and not the DROP, and the pass that executes it returns the
    account, still present, with the new hash; without a provided field the
    DROP is built. *)
Theorem absent_with_differing_hash_alters :
  ensure_sql want_absent_with_hash (Some (user_of_row "APP" app_open))
    = Some "ALTER USER APP IDENTIFIED BY VALUES 'H2'" /\
  ensure_sql want_absent_with_hash (Some (user_of_row "APP" app_open))
    <> Some (getDropUserSQL "APP") /\
  fst (ensure want_absent_with_hash (MiniOracle.start only_app))
    = Returned (true, Some (user_of_row "APP"
                 (mkRow (Some "USERS") (Some "TEMP") (Some "H2") (Some "OPEN")))) /\
  ensure_sql want_absent (Some (user_of_row "APP" app_open))
    = Some ("DROP USER " +:+ dquote +:+ "APP" +:+ dquote +:+ " CASCADE").
Proof.
  split; [reflexivity |].
  split; [vm_compute; congruence |].
  split; [compute_done | reflexivity].
Qed.

(** X8: when no provided field differs, an existing account with desired
    state absent gets the DROP statement, name upper-cased and quoted. *)
Lemma drop_when_no_field_differs (p : Params) (n : string) (row : Row) :
  p_state p = absent ->
  field_diff_last p row = None ->
  ensure_sql p (Some (user_of_row n row)) =
  Some ("DROP USER " +:+ dquote +:+ upper (p_name p) +:+ dquote +:+ " CASCADE").
Proof.
  intros Hstate Hnone. rewrite ensure_sql_found. cbn zeta.
  unfold field_diff_last in Hnone.
  destruct (differs (p_temporary_tablespace p) (row1 row)); [discriminate |].
  destruct (differs (p_default_tablespace p) (row0 row)); [discriminate |].
  destruct (differs (p_password p) (row2 row)); [discriminate |].
  now rewrite bool_decide_eq_true_2 by exact Hstate.
Qed.

(** ** Every statement built is a CREATE, an ALTER or a DROP *)

Lemma getUpdateUserSQL_prefix (n : string) (pw d t a : pyval) :
  is_prefix "ALTER USER " (getUpdateUserSQL n pw d t a) = true.
Proof.
  unfold getUpdateUserSQL.
  destruct (truthy pw), (truthy d), (truthy t);
    repeat apply is_prefix_append_l; reflexivity.
Qed.

Lemma getCreateUserSQL_prefix (n : string) (pw d t a : pyval) :
  is_prefix "CREATE USER " (getCreateUserSQL n pw d t a) = true.
Proof. rewrite getCreateUserSQL_text. apply is_prefix_append. Qed.

Lemma getDropUserSQL_prefix (n : string) :
  is_prefix "DROP USER " (getDropUserSQL n) = true.
Proof. apply is_prefix_append. Qed.

Lemma ensure_sql_is_mutation (p : Params) (user : option User) (sql : string) :
  ensure_sql p user = Some sql -> is_mutation sql = true.
Proof.
  unfold ensure_sql, is_mutation.
  repeat match goal with
         | |- context [if ?b then _ else _] => destruct b
         end;
    intros Hsql; try discriminate; injection Hsql as <-;
    rewrite ?getUpdateUserSQL_prefix, ?getCreateUserSQL_prefix,
      ?getDropUserSQL_prefix, ?orb_true_r; reflexivity.
Qed.

Lemma is_mutation_truthy (sql : string) :
  is_mutation sql = true -> truthy (Some sql) = true.
Proof. now destruct sql. Qed.

Lemma ensure_sql_truthy (p : Params) (user : option User) :
  truthy (ensure_sql p user) = match ensure_sql p user with
                               | Some _ => true
                               | None => false
                               end.
Proof.
  destruct (ensure_sql p user) as [sql|] eqn:Hsql; [| reflexivity].
  eauto using is_mutation_truthy, ensure_sql_is_mutation.
Qed.

(** ** One pass, step by step *)

Section Pass.
Context {DB : Type} `{Driver DB}.
Implicit Types (p : Params) (w : World DB).

Lemma getUser_run (name : string) w :
  getUser name w =
  match select_user (w_db w) name with
  | DatabaseError e => (Raised (NameError "module"), record (Select name) w)
  | DbOk row => (Returned (found name row), record (Select name) w)
  end.
Proof.
  unfold getUser, module_unbound, raise, found. cbn.
  destruct (select_user (w_db w) name) as [[r|]|e]; reflexivity.
Qed.

Lemma ensure_run p w :
  ensure p w =
  let name := upper (p_name p) in
  match select_user (w_db w) name with
  | DatabaseError e =>
      (Raised (NameError "module"), mkWorld (w_db w) (w_log w ++ [Select name]))
  | DbOk row =>
      match ensure_sql p (found name row) with
      | None =>
          (Returned (false, found name row),
           mkWorld (w_db w) (w_log w ++ [Select name; Select name]))
      | Some sql =>
          match run_sql (w_db w) sql with
          | DatabaseError e =>
              (Raised (NameError "module"),
               mkWorld (w_db w) (w_log w ++ [Select name; Execute sql]))
          | DbOk db' =>
              let w' := mkWorld db' (w_log w ++ [Select name; Execute sql; Select name]) in
              match select_user db' name with
              | DatabaseError e => (Raised (NameError "module"), w')
              | DbOk row' => (Returned (true, found name row'), w')
              end
          end
      end
  end.
Proof.
  unfold ensure, bind. rewrite getUser_run. cbn zeta.
  destruct (select_user (w_db w) (upper (p_name p))) as [row|e] eqn:Hsel;
    [| reflexivity].
  rewrite ensure_sql_truthy.
  destruct (ensure_sql p (found (upper (p_name p)) row)) as [sql|].
  - unfold executeSQL, module_unbound, raise. cbn -[getUser].
    destruct (run_sql (w_db w) sql) as [db'|e].
    + unfold ret. cbn -[getUser]. rewrite getUser_run. cbn.
      destruct (select_user db' (upper (p_name p)));
        unfold record; cbn; now rewrite <- !app_assoc.
    + unfold record. cbn. now rewrite <- app_assoc.
  - unfold ret. rewrite getUser_run. cbn. rewrite Hsel.
    unfold record. cbn. now rewrite <- app_assoc.
Qed.

End Pass.

(** ** Properties of a pass *)

(** C4: a pass executes nothing, or exactly one statement, which is a
    CREATE, an ALTER or a DROP; all else it does on the connection is the
    catalog lookup. *)
Theorem at_most_one_statement_per_pass {DB : Type} `{Driver DB}
    (p : Params) (w : World DB) :
  exists evs : list event,
    w_log (snd (ensure p w)) = (w_log w ++ evs)%list /\
    (executed evs = [] \/
     exists sql, executed evs = [sql] /\ is_mutation sql = true).
Proof.
  rewrite ensure_run. cbn zeta.
  destruct (select_user (w_db w) (upper (p_name p))) as [row|e].
  2: { eexists. split; [reflexivity |]. now left. }
  destruct (ensure_sql p (found (upper (p_name p)) row)) as [sql|] eqn:Hsql.
  2: { eexists. split; [reflexivity |]. now left. }
  apply ensure_sql_is_mutation in Hsql.
  destruct (run_sql (w_db w) sql) as [db'|e].
  2: { eexists. split; [reflexivity |]. right. now exists sql. }
  destruct (select_user db' (upper (p_name p)));
    (eexists; split; [reflexivity |]; right; now exists sql).
Qed.

(** C5: when a pass returns, its changed flag is true exactly when the
    decision on the record first read produced a statement and the database
    executed it; the record returned is what a read of the account gives on
    the database the pass leaves behind; and when no statement was built the
    flag is false and the database is the one the pass started from. *)
Theorem changed_iff_statement_executed {DB : Type} `{Driver DB}
    (p : Params) (w w' : World DB) (changed : bool) (final : option User) :
  ensure p w = (Returned (changed, final), w') ->
  let name := upper (p_name p) in
  exists row,
    select_user (w_db w) name = DbOk row /\
    (changed = true <->
     exists sql db', ensure_sql p (found name row) = Some sql /\
                     run_sql (w_db w) sql = DbOk db') /\
    fst (getUser name w') = Returned final /\
    (ensure_sql p (found name row) = None ->
     changed = false /\ w_db w' = w_db w /\ executed (w_log w') = executed (w_log w)).
Proof.
  rewrite ensure_run. cbn zeta. intros Hrun.
  destruct (select_user (w_db w) (upper (p_name p))) as [row|e] eqn:Hsel;
    [| discriminate].
  exists row. split; [reflexivity |].
  destruct (ensure_sql p (found (upper (p_name p)) row)) as [sql|] eqn:Hsql.
  - destruct (run_sql (w_db w) sql) as [db'|e] eqn:Hexec; [| discriminate].
    destruct (select_user db' (upper (p_name p))) as [row'|e] eqn:Hsel';
      [| discriminate].
    injection Hrun as <- <- <-.
    repeat split; try discriminate.
    + now exists sql, db'.
    + rewrite getUser_run. cbn. now rewrite Hsel'.
  - injection Hrun as <- <- <-.
    repeat split.
    + discriminate.
    + now intros (sql & db' & Hsome & _).
    + rewrite getUser_run. cbn. now rewrite Hsel.
    + unfold executed. cbn. rewrite omap_app. cbn. now rewrite app_nil_r.
Qed.

Lemma changed_iff_statement_executed_witness :
  exists row,
    select_user only_app "APP" = DbOk row /\
    (true = true <->
     exists sql db', ensure_sql want_absent (found "APP" row) = Some sql /\
                     run_sql only_app sql = DbOk db') /\
    fst (getUser "APP" (snd (ensure want_absent (MiniOracle.start only_app))))
      = Returned None /\
    (ensure_sql want_absent (found "APP" row) = None ->
     true = false /\
     w_db (snd (ensure want_absent (MiniOracle.start only_app))) = only_app /\
     executed (w_log (snd (ensure want_absent (MiniOracle.start only_app)))) = []).
Proof.
  apply (changed_iff_statement_executed want_absent (MiniOracle.start only_app)
           (snd (ensure want_absent (MiniOracle.start only_app))) true None).
  vm_compute. reflexivity.
Defined.

(** C8: when the account does not exist and the desired lifecycle is
    absent, no statement is built, the pass only looks the account up twice,
    and it returns changed = false with no record. *)
Theorem absent_and_missing_is_noop {DB : Type} `{Driver DB}
    (p : Params) (w : World DB) :
  p_state p = absent ->
  select_user (w_db w) (upper (p_name p)) = DbOk None ->
  ensure_sql p None = None /\
  ensure p w =
    (Returned (false, None),
     mkWorld (w_db w)
       (w_log w ++ [Select (upper (p_name p)); Select (upper (p_name p))])).
Proof.
  intros Hstate Hsel.
  assert (Hnone : ensure_sql p None = None).
  { rewrite ensure_sql_notfound. now rewrite bool_decide_eq_true_2. }
  split; [exact Hnone |].
  rewrite ensure_run. cbn zeta. rewrite Hsel. cbn [found fmap option_fmap option_map].
  now rewrite Hnone.
Qed.

Lemma absent_and_missing_is_noop_witness :
  ensure_sql want_absent None = None /\
  ensure want_absent (MiniOracle.start ∅) =
    (Returned (false, None), mkWorld ∅ [Select "APP"; Select "APP"]).
Proof.
  apply (absent_and_missing_is_noop want_absent (MiniOracle.start ∅));
    reflexivity.
Defined.

(** C9, evaluated on the code: when the database rejects the statement,
    the pass stops at once and the account is not read again, but what ends
    it is the [NameError] for the name [module], read in [executeSQL] where
    it is not bound: no failure message is produced, so neither the
    statement text nor the driver's message reaches the caller. At the
    request for account app, present with hash H1, on a database that has
    no such account and refuses the CREATE for want of privilege, the pass
    raises after the lookup and the execution. *)
Theorem statement_error_raises_NameError {DB : Type} `{Driver DB}
    (p : Params) (w : World DB) (row : option Row) (sql e : string) :
  select_user (w_db w) (upper (p_name p)) = DbOk row ->
  ensure_sql p (found (upper (p_name p)) row) = Some sql ->
  run_sql (w_db w) sql = DatabaseError e ->
  ensure p w =
    (Raised (NameError "module"),
     mkWorld (w_db w) (w_log w ++ [Select (upper (p_name p)); Execute sql])) /\
  fst (ensure p w) <> Failed (sql +:+ ": " +:+ e).
Proof.
  intros Hsel Hsql Hexec. rewrite ensure_run. cbn zeta.
  rewrite Hsel, Hsql, Hexec. split; [reflexivity | discriminate].
Qed.

Lemma statement_error_raises_NameError_witness :
  let sql := "CREATE USER APP IDENTIFIED BY VALUES 'H1' ACCOUNT UNLOCK" in
  ensure want_present_hash (mkWorld tt []) =
    (Raised (NameError "module"),
     mkWorld tt [Select "APP"; Execute sql]) /\
  fst (ensure want_present_hash (mkWorld tt []))
    <> Failed (sql +:+ ": " +:+ Denied.refused).
Proof.
  cbn zeta.
  apply (statement_error_raises_NameError want_present_hash (mkWorld tt []) None
           "CREATE USER APP IDENTIFIED BY VALUES 'H1' ACCOUNT UNLOCK"
           Denied.refused);
    reflexivity.
Defined.


(** ** Two passes in succession *)


(** When two provided fields differ, both passes change something: the
    first moves the temporary tablespace, the second the default one. *)
Lemma two_diffs_take_two_passes :
  let w0 := MiniOracle.start only_app in
  let w1 := snd (ensure want_two_tablespaces w0) in
  let w2 := snd (ensure want_two_tablespaces w1) in
  let moved t d := Some (user_of_row "APP" (mkRow (Some d) (Some t) (Some "H1") (Some "OPEN"))) in
  executed (w_log w2) =
    ["ALTER USER APP TEMPORARY TABLESPACE TEMP2";
     "ALTER USER APP DEFAULT TABLESPACE DATA"] /\
  fst (ensure want_two_tablespaces w0) = Returned (true, moved "TEMP2" "USERS") /\
  fst (ensure want_two_tablespaces w1) = Returned (true, moved "TEMP2" "DATA") /\
  fst (ensure want_two_tablespaces w2) = Returned (false, moved "TEMP2" "DATA").
Proof. cbn zeta. repeat split; compute_done. Qed.








(** ** Further properties of the builders and mappings *)

(** X1: the lifecycle test of [ensure] on the four admitted states: present
    and unlocked match exactly the status OPEN, locked matches every other
    status (a missing status included), and absent matches none; the
    substring test against the text locked accepts locked alone. *)
Theorem lifecycle_matches_cases (s : State) (account_status : pyval) :
  lifecycle_matches s account_status =
  match s with
  | present | unlocked => bool_decide (account_status = Some "OPEN")
  | locked => negb (bool_decide (account_status = Some "OPEN"))
  | absent => false
  end.
Proof.
  unfold lifecycle_matches, mapAccountStatus.
  destruct (bool_decide (account_status = Some "OPEN")); now destruct s.
Qed.

(** X2: the text [getUpdateUserSQL] builds for any arguments: ALTER USER
    and the name, then the password clause, the default tablespace clause
    and the temporary tablespace clause, each present exactly when its
    argument is provided, in that order; the [account_status] argument
    leaves no trace in it. *)
Theorem getUpdateUserSQL_text (n : string) (pw d t a : pyval) :
  getUpdateUserSQL n pw d t a =
  "ALTER USER " +:+ n
  +:+ (if truthy pw then " IDENTIFIED BY VALUES '" +:+ py_str pw +:+ "'" else "")
  +:+ (if truthy d then " DEFAULT TABLESPACE " +:+ py_str d else "")
  +:+ (if truthy t then " TEMPORARY TABLESPACE " +:+ py_str t else "").
Proof.
  unfold getUpdateUserSQL.
  destruct (truthy pw), (truthy d), (truthy t);
    rewrite ?append_assoc, ?append_empty_r; reflexivity.
Qed.

Lemma truthy_provided (v : pyval) : truthy (provided v) = truthy v.
Proof. unfold provided. now destruct (truthy v) eqn:Hv. Qed.

Lemma provided_truthy (v : pyval) : truthy v = true -> provided v = v.
Proof. unfold provided. now intros ->. Qed.

Lemma differs_provided (v stored : pyval) :
  differs (provided v) stored = differs v stored.
Proof.
  unfold differs. rewrite truthy_provided.
  destruct (truthy v) eqn:Hv; [| reflexivity].
  now rewrite provided_truthy.
Qed.

Lemma getCreateUserSQL_provided (n : string) (pw d t a : pyval) :
  getCreateUserSQL n pw (provided d) (provided t) a = getCreateUserSQL n pw d t a.
Proof.
  rewrite !getCreateUserSQL_text, !truthy_provided.
  destruct (truthy d) eqn:Hd, (truthy t) eqn:Ht;
    rewrite ?provided_truthy by assumption; reflexivity.
Qed.

Lemma alter_provided (n : string) (pw d t a : pyval) :
  getUpdateUserSQL n (provided pw) (provided d) (provided t) a
  = getUpdateUserSQL n pw d t a.
Proof.
  unfold getUpdateUserSQL. rewrite !truthy_provided.
  destruct (truthy pw) eqn:Hp, (truthy d) eqn:Hd, (truthy t) eqn:Ht;
    rewrite ?provided_truthy by assumption; reflexivity.
Qed.

(** X3: an empty-string tablespace is treated like one that was not given,
    whether the account exists or not; an empty-string password is treated
    like a missing one on an existing account. (On a missing account the
    empty password is written into the CREATE as an empty credential, a
    missing one as the text None.) *)
Theorem empty_parameter_is_not_provided
    (name : string) (pw d t : pyval) (st : State) (n : string) (row : Row) :
  ensure_sql (mkParams name pw st (provided d) (provided t)) None
    = ensure_sql (mkParams name pw st d t) None /\
  ensure_sql (mkParams name (provided pw) st (provided d) (provided t))
      (Some (user_of_row n row))
    = ensure_sql (mkParams name pw st d t) (Some (user_of_row n row)).
Proof.
  split.
  - rewrite !ensure_sql_notfound. cbn [p_state p_name p_password
      p_default_tablespace p_temporary_tablespace].
    now rewrite getCreateUserSQL_provided.
  - rewrite !ensure_sql_found.
    unfold alter_temporary, alter_default, alter_password.
    cbn [p_state p_name p_password p_default_tablespace p_temporary_tablespace].
    rewrite !differs_provided.
    pose proof (alter_provided (upper name) None None t None) as Ht.
    pose proof (alter_provided (upper name) None d None None) as Hd.
    pose proof (alter_provided (upper name) pw None None None) as Hp.
    cbn [provided truthy] in Ht, Hd, Hp. now rewrite Ht, Hd, Hp.
Qed.

Lemma upper_ascii_idem (c : ascii) : upper_ascii (upper_ascii c) = upper_ascii c.
Proof. destruct c as [[] [] [] [] [] [] [] []]; reflexivity. Qed.

Lemma upper_idem (s : string) : upper (upper s) = upper s.
Proof.
  induction s as [|c s IH]; [reflexivity |].
  cbn [upper]. now rewrite upper_ascii_idem, IH.
Qed.

(** X4: the account name matters only through its upper-case form: a
    request naming the account in upper case gives the same statement and
    the same pass as the request as written. *)
Theorem name_is_case_normalised {DB : Type} `{Driver DB}
    (name : string) (pw d t : pyval) (st : State)
    (user : option User) (w : World DB) :
  ensure_sql (mkParams (upper name) pw st d t) user
    = ensure_sql (mkParams name pw st d t) user /\
  ensure (mkParams (upper name) pw st d t) w
    = ensure (mkParams name pw st d t) w.
Proof.
  assert (Hsql : forall u, ensure_sql (mkParams (upper name) pw st d t) u
                           = ensure_sql (mkParams name pw st d t) u).
  { intros u. unfold ensure_sql.
    cbn [p_state p_name p_password p_default_tablespace p_temporary_tablespace].
    now rewrite upper_idem. }
  split; [apply Hsql |].
  rewrite !ensure_run.
  cbn [p_state p_name p_password p_default_tablespace p_temporary_tablespace].
  rewrite upper_idem. cbn zeta.
  destruct (select_user (w_db w) (upper name)); [| reflexivity].
  now rewrite Hsql.
Qed.

Lemma is_prefix_refl (a : string) : is_prefix a a = true.
Proof.
  induction a as [|x a IH]; [reflexivity |].
  cbn [is_prefix]. now rewrite bool_decide_eq_true_2.
Qed.

Lemma getUpdateUserSQL_targets (n : string) (pw d t a : pyval) :
  is_prefix ("ALTER USER " +:+ n) (getUpdateUserSQL n pw d t a) = true.
Proof.
  unfold getUpdateUserSQL.
  destruct (truthy pw), (truthy d), (truthy t);
    repeat first [apply is_prefix_refl | apply is_prefix_append
                 | apply is_prefix_append_l].
Qed.

Lemma is_prefix_append3 (a b c r : string) :
  is_prefix (a +:+ b +:+ c) (a +:+ b +:+ c +:+ r) = true.
Proof.
  rewrite <- (append_assoc b c r), <- (append_assoc a (b +:+ c) r).
  apply is_prefix_append.
Qed.

(** X5: every statement [ensure] builds names the requested account in
    upper case directly after its verb: unquoted in CREATE and ALTER, between
    double quotes in DROP. *)
Theorem statement_targets_account (p : Params) (user : option User) (sql : string) :
  ensure_sql p user = Some sql ->
  let name := upper (p_name p) in
  is_prefix ("CREATE USER " +:+ name +:+ " IDENTIFIED BY VALUES '") sql
  || is_prefix ("ALTER USER " +:+ name) sql
  || is_prefix ("DROP USER " +:+ dquote +:+ name +:+ dquote +:+ " CASCADE") sql = true.
Proof.
  cbn zeta. unfold ensure_sql.
  assert (Halter : forall pw d t a,
    is_prefix ("ALTER USER " +:+ upper (p_name p))
      (getUpdateUserSQL (upper (p_name p)) pw d t a) = true).
  { intros. apply getUpdateUserSQL_targets. }
  assert (Hcreate : forall pw d t a,
    is_prefix ("CREATE USER " +:+ upper (p_name p) +:+ " IDENTIFIED BY VALUES '")
      (getCreateUserSQL (upper (p_name p)) pw d t a) = true).
  { intros. rewrite getCreateUserSQL_text. apply is_prefix_append3. }
  repeat match goal with
         | |- context [if ?b then _ else _] => destruct b
         end;
    intros Hsql; try discriminate; injection Hsql as <-;
    rewrite ?Halter, ?Hcreate, ?orb_true_r; try reflexivity.
  all: unfold getDropUserSQL; now rewrite is_prefix_refl, orb_true_r.
Qed.

Lemma statement_targets_account_witness :
  is_prefix "CREATE USER APP IDENTIFIED BY VALUES '"
      "ALTER USER APP TEMPORARY TABLESPACE TEMP2"
  || is_prefix "ALTER USER APP" "ALTER USER APP TEMPORARY TABLESPACE TEMP2"
  || is_prefix ("DROP USER " +:+ dquote +:+ "APP" +:+ dquote +:+ " CASCADE")
       "ALTER USER APP TEMPORARY TABLESPACE TEMP2" = true.
Proof.
  apply (statement_targets_account want_hash_and_temp
           (Some (user_of_row "APP" app_open))).
  reflexivity.
Defined.

Lemma getUpdateUserSQL_not_create (n : string) (pw d t a : pyval) :
  is_prefix "CREATE USER " (getUpdateUserSQL n pw d t a) = false.
Proof.
  unfold getUpdateUserSQL.
  destruct (truthy pw), (truthy d), (truthy t); reflexivity.
Qed.

(** X6: CREATE is built for a missing account only, and nothing else is
    built for one: on an existing account the statement, when there is one,
    is never a CREATE; on a missing account it is a CREATE, and there is
    none exactly when the desired state is absent. *)
Theorem create_only_when_missing (p : Params) (n : string) (row : Row) :
  match ensure_sql p (Some (user_of_row n row)) with
  | Some sql => is_prefix "CREATE USER " sql = false
  | None => True
  end /\
  match ensure_sql p None with
  | Some sql => is_prefix "CREATE USER " sql = true /\ p_state p <> absent
  | None => p_state p = absent
  end.
Proof.
  split.
  - rewrite ensure_sql_found. cbn zeta.
    unfold alter_temporary, alter_default, alter_password.
    repeat match goal with
           | |- context [if ?b then _ else _] => destruct b
           end;
      first [exact I | apply getUpdateUserSQL_not_create | reflexivity].
  - rewrite ensure_sql_notfound.
    destruct (bool_decide (p_state p = absent)) eqn:Hst.
    + now apply bool_decide_eq_true in Hst.
    + apply bool_decide_eq_false in Hst.
      split; [apply getCreateUserSQL_prefix | exact Hst].
Qed.

(** X7: on an existing account a provided field that differs decides the
    statement whatever the desired state is: the ALTER of the last differing
    field replaces the DROP of state absent and the ALTER of a lifecycle
    mismatch alike. *)
Theorem field_diff_overrides_state (p : Params) (n : string) (row : Row) :
  field_diff_last p row <> None ->
  ensure_sql p (Some (user_of_row n row)) = field_diff_last p row.
Proof.
  intros Hdiff. rewrite ensure_sql_found. cbn zeta.
  unfold field_diff_last in *.
  destruct (differs (p_temporary_tablespace p) (row1 row)); [reflexivity |].
  destruct (differs (p_default_tablespace p) (row0 row)); [reflexivity |].
  destruct (differs (p_password p) (row2 row)); [reflexivity |].
  now contradict Hdiff.
Qed.

Lemma field_diff_overrides_state_witness :
  ensure_sql want_absent_with_hash (Some (user_of_row "APP" app_open))
  = field_diff_last want_absent_with_hash app_open.
Proof.
  apply (field_diff_overrides_state want_absent_with_hash "APP" app_open).
  discriminate.
Defined.

Lemma drop_when_no_field_differs_witness :
  ensure_sql want_absent (Some (user_of_row "APP" app_open)) =
  Some ("DROP USER " +:+ dquote +:+ "APP" +:+ dquote +:+ " CASCADE").
Proof.
  apply (drop_when_no_field_differs want_absent "APP" app_open); reflexivity.
Defined.

Lemma lock_mismatch_bare_alter_witness :
  ensure_sql want_locked (Some (user_of_row "APP" app_open))
  = Some "ALTER USER APP".
Proof.
  apply (lock_mismatch_bare_alter want_locked "APP" app_open);
    [discriminate | reflexivity | reflexivity].
Defined.

(** ** Further properties of the reader and of a pass *)

(** X10: for a row the catalog returns, [getUser] gives a record with
    exactly the keys name, default_tablespace, temporary_tablespace,
    password and account_status, holding the name looked up and the four
    columns in that order; it leaves the database as it was. *)
Theorem getUser_record {DB : Type} `{Driver DB}
    (name : string) (w : World DB) (row : Row) :
  select_user (w_db w) name = DbOk (Some row) ->
  exists d : User,
    getUser name w
      = (Returned (Some d), mkWorld (w_db w) (w_log w ++ [Select name])) /\
    dom d = ({[ "name"; "default_tablespace"; "temporary_tablespace";
                "password"; "account_status" ]} : gset string) /\
    d !! "name" = Some (Some name) /\
    d !! "default_tablespace" = Some (row0 row) /\
    d !! "temporary_tablespace" = Some (row1 row) /\
    d !! "password" = Some (row2 row) /\
    d !! "account_status" = Some (row3 row).
Proof.
  intros Hsel. exists (user_of_row name row).
  split; [rewrite getUser_run, Hsel; reflexivity |].
  unfold user_of_row, User.
  split; [rewrite !dom_insert_L, dom_empty_L; set_solver |].
  repeat split; now simplify_map_eq.
Qed.

Lemma getUser_record_witness :
  exists d : User,
    getUser "APP" (MiniOracle.start only_app)
      = (Returned (Some d), mkWorld only_app [Select "APP"]) /\
    dom d = ({[ "name"; "default_tablespace"; "temporary_tablespace";
                "password"; "account_status" ]} : gset string) /\
    d !! "name" = Some (Some "APP") /\
    d !! "default_tablespace" = Some (Some "USERS") /\
    d !! "temporary_tablespace" = Some (Some "TEMP") /\
    d !! "password" = Some (Some "H1") /\
    d !! "account_status" = Some (Some "OPEN").
Proof.
  apply (getUser_record "APP" (MiniOracle.start only_app) app_open).
  reflexivity.
Defined.

(** X11: when the first lookup fails, the pass stops there: no statement
    is built or executed and the account is not looked up again. What ends
    it is the [NameError] for the name [module], read in [getUser] where it
    is not bound, so the driver's message is not reported. *)
Theorem lookup_error_aborts {DB : Type} `{Driver DB}
    (p : Params) (w : World DB) (e : string) :
  select_user (w_db w) (upper (p_name p)) = DatabaseError e ->
  ensure p w =
    (Raised (NameError "module"),
     mkWorld (w_db w) (w_log w ++ lookup_only (upper (p_name p)))).
Proof. intros Hsel. rewrite ensure_run. cbn zeta. now rewrite Hsel. Qed.

Lemma lookup_error_aborts_witness :
  ensure want_locked_no_hash (mkWorld true []) =
    (Raised (NameError "module"), mkWorld true [Select "APP"]).
Proof.
  apply (lookup_error_aborts want_locked_no_hash (mkWorld true []) Flaky.lost).
  reflexivity.
Defined.

(** X12: when the statement is executed and the lookup that follows it
    fails, the pass ends with the [NameError] of [getUser] although the
    database has already been changed: the change is made, and neither a
    changed flag nor a failure message is produced for it. *)
Theorem confirmation_error_after_change {DB : Type} `{Driver DB}
    (p : Params) (w : World DB) (row : option Row) (sql e : string) (db' : DB) :
  select_user (w_db w) (upper (p_name p)) = DbOk row ->
  ensure_sql p (found (upper (p_name p)) row) = Some sql ->
  run_sql (w_db w) sql = DbOk db' ->
  select_user db' (upper (p_name p)) = DatabaseError e ->
  ensure p w =
    (Raised (NameError "module"),
     mkWorld db' (w_log w ++ lookup_execute_lookup (upper (p_name p)) sql)).
Proof.
  intros Hsel Hsql Hexec Hsel'. rewrite ensure_run. cbn zeta.
  now rewrite Hsel, Hsql, Hexec, Hsel'.
Qed.

Lemma confirmation_error_after_change_witness :
  ensure want_locked_no_hash (mkWorld false []) =
    (Raised (NameError "module"),
     mkWorld true
       [Select "APP";
        Execute "CREATE USER APP IDENTIFIED BY VALUES 'None' DEFAULT TABLESPACE USERS ACCOUNT LOCK";
        Select "APP"]).
Proof.
  apply (confirmation_error_after_change want_locked_no_hash (mkWorld false [])
           None
           "CREATE USER APP IDENTIFIED BY VALUES 'None' DEFAULT TABLESPACE USERS ACCOUNT LOCK"
           Flaky.lost true);
    reflexivity.
Defined.

(** X13: what a pass does on the connection, by its outcome. Returning
    changed = false it has looked the account up twice and left the database
    as it was; returning changed = true it has looked up, executed one
    statement and looked up again; failing it has stopped after the first
    lookup, after the execution, or after the second lookup. A statement is
    never executed before the first lookup, and never two. *)
Theorem pass_shape {DB : Type} `{Driver DB} (p : Params) (w : World DB) :
  let name := upper (p_name p) in
  exists evs : list event,
    w_log (snd (ensure p w)) = (w_log w ++ evs)%list /\
    match fst (ensure p w) with
    | Returned (false, _) =>
        evs = two_lookups name /\ w_db (snd (ensure p w)) = w_db w
    | Returned (true, _) =>
        exists sql, evs = lookup_execute_lookup name sql
    | Failed _ | Raised _ =>
        evs = lookup_only name \/
        exists sql, evs = lookup_execute name sql
                    \/ evs = lookup_execute_lookup name sql
    end.
Proof.
  cbn zeta. rewrite ensure_run. cbn zeta.
  destruct (select_user (w_db w) (upper (p_name p))) as [row|e].
  2: { eexists. split; [reflexivity |]. now left. }
  destruct (ensure_sql p (found (upper (p_name p)) row)) as [sql|].
  2: { eexists. split; [reflexivity |]. now split. }
  destruct (run_sql (w_db w) sql) as [db'|e].
  2: { eexists. split; [reflexivity |]. right. exists sql. now left. }
  destruct (select_user db' (upper (p_name p))).
  - eexists. split; [reflexivity |]. now exists sql.
  - eexists. split; [reflexivity |]. right. exists sql. now right.
Qed.

(** ** The entry point *)


(** X15: what a successful [main] reports, tied to what the driver
    answered. The client library was found and the connection opened.
    changed = false: the lookup succeeded, no statement was built for the
    record read, that record is the user reported, and the connection saw
    two lookups. changed = true: the statement built for the record read
    was executed, the user reported is the record looked up on the database
    that execution returned, and the connection saw lookup, that statement,
    lookup. *)
Theorem main_report {DB : Type} `{Driver DB} (connect : string -> dbres DB)
    (oracleclient_found : bool) (c : Connection) (p : Params)
    (changed : bool) (user : option User) (log : list event) :
  main connect oracleclient_found c p = (exit_json changed user, log) ->
  let name := upper (p_name p) in
  oracleclient_found = true /\
  exists conn row,
    createConnection connect (oracle_user c) (oracle_pass c)
      (oracle_host c) (oracle_port c) (oracle_service c) = DbOk conn /\
    select_user conn name = DbOk row /\
    if changed
    then exists sql db' row',
           ensure_sql p (found name row) = Some sql /\
           is_mutation sql = true /\
           run_sql conn sql = DbOk db' /\
           select_user db' name = DbOk row' /\
           user = found name row' /\
           log = lookup_execute_lookup name sql
    else ensure_sql p (found name row) = None /\
         user = found name row /\
         log = two_lookups name.
Proof.
  cbn zeta. unfold main.
  destruct oracleclient_found; cbn [negb]; [| discriminate].
  destruct (createConnection _ _ _ _ _ _) as [conn|e]; [| discriminate].
  rewrite ensure_run. cbn zeta. cbn [w_db w_log app].
  destruct (select_user conn (upper (p_name p))) as [row|e] eqn:Hsel;
    [| discriminate].
  destruct (ensure_sql p (found (upper (p_name p)) row)) as [sql|] eqn:Hsql.
  - pose proof (ensure_sql_is_mutation _ _ _ Hsql) as Hmut.
    destruct (run_sql conn sql) as [db'|e] eqn:Hexec; [| discriminate].
    destruct (select_user db' (upper (p_name p))) as [row'|e] eqn:Hsel';
      [| discriminate].
    intros [= <- <- <-]. split; [reflexivity |].
    exists conn, row. split; [reflexivity |]. split; [exact Hsel |].
    now exists sql, db', row'.
  - intros [= <- <- <-]. split; [reflexivity |].
    exists conn, row. now repeat split.
Qed.

Lemma main_report_witness :
  true = true /\
  exists conn row,
    createConnection listener "SYSTEM" "manager" "127.0.0.1" "1521" "ORCL"
      = DbOk conn /\
    select_user conn "APP" = DbOk row /\
    exists sql db' row',
      ensure_sql want_absent (found "APP" row) = Some sql /\
      is_mutation sql = true /\
      run_sql conn sql = DbOk db' /\
      select_user db' "APP" = DbOk row' /\
      (None : option User) = found "APP" row' /\
      [Select "APP"; Execute (getDropUserSQL "APP"); Select "APP"]
        = lookup_execute_lookup "APP" sql.
Proof.
  apply (main_report listener true default_connection want_absent true None
           [Select "APP"; Execute (getDropUserSQL "APP"); Select "APP"]).
  vm_compute. reflexivity.
Defined.
